(** * backend/app.py: the four Flask routes over the Breeze and Gemini clients

    A shallow embedding of [backend/app.py].  Each view function reads
    [request.json], picks one field with [dict.get], calls one method of a
    process-wide SDK client inside [try: ... except Exception as e:] and
    returns [jsonify(...)] with a status code.

    The two SDKs ([breeze_connect], [google.generativeai]) are not part of
    the repository: a client is given by what its methods do to the client's
    own state, and every statement below is about an arbitrary client.  The
    same holds for the JSON encoder behind [jsonify]: which payloads it
    refuses is a parameter. *)

From Stdlib Require Import String List ZArith DecimalString Lia.
Import ListNotations.
Open Scope string_scope.
Set Warnings "-register-all".

(** ** Python values *)

(** What [request.json] can yield and what the SDKs return: the Python images
    of JSON documents.  A [dict] is kept as its items in insertion order (the
    keys of a Python dict are distinct); a [float] is carried by the text
    Python prints for it, the only thing the program can observe of it. *)
Inductive value : Type :=
| VNone
| VBool (b : bool)
| VInt (z : Z)
| VFloat (literal : string)
| VStr (s : string)
| VList (items : list value)
| VDict (items : list (string * value)).

(** An instance of Python's [Exception], the class named by the four
    [except Exception as e] clauses: its class name and the text [str(e)]. *)
Record exn : Type := Exception { exn_class : string; exn_str : string }.

(** Evaluating a Python expression either yields a value or raises. *)
Inductive result (A : Type) : Type :=
| Return (a : A)
| Raise (e : exn).
Arguments Return {A} a.
Arguments Raise {A} e.

(** [str(e)] *)
Definition str_exn (e : exn) : string := exn_str e.

(** [type(v).__name__], as it appears in the text of an [AttributeError]. *)
Definition type_name (v : value) : string :=
  match v with
  | VNone => "NoneType"
  | VBool _ => "bool"
  | VInt _ => "int"
  | VFloat _ => "float"
  | VStr _ => "str"
  | VList _ => "list"
  | VDict _ => "dict"
  end.

Fixpoint assoc (k : string) (items : list (string * value)) : option value :=
  match items with
  | [] => None
  | (k', v) :: rest => if String.eqb k k' then Some v else assoc k rest
  end.

(** [d.get(k)] on a dict: the value under [k], [None] when [k] is absent. *)
Definition dict_get (items : list (string * value)) (k : string) : value :=
  match assoc k items with
  | Some v => v
  | None => VNone
  end.

(** [data.get(k)] on whatever [data] is: only a dict has the method. *)
Definition py_get (data : value) (k : string) : result value :=
  match data with
  | VDict items => Return (dict_get items k)
  | _ => Raise (Exception "AttributeError"
                  ("'" ++ type_name data ++ "' object has no attribute 'get'"))
  end.

(** [needle in hay] for two [str]. *)
Definition contains (hay needle : string) : Prop :=
  exists before after, hay = before ++ needle ++ after.

Definition string_of_Z (z : Z) : string := NilZero.string_of_int (Z.to_int z).

Fixpoint join (sep : string) (l : list string) : string :=
  match l with
  | [] => ""
  | [x] => x
  | x :: rest => x ++ sep ++ join sep rest
  end.

Section Formatting.

(** [repr] of a [str]: Python's choice of quotes and escapes depends on
    Unicode tables of the interpreter; it is taken as given. *)
Variable repr_str : string -> string.

Fixpoint repr (v : value) : string :=
  match v with
  | VNone => "None"
  | VBool true => "True"
  | VBool false => "False"
  | VInt z => string_of_Z z
  | VFloat literal => literal
  | VStr s => repr_str s
  | VList items => "[" ++ join ", " (map repr items) ++ "]"
  | VDict items =>
      "{" ++ join ", " (map (fun kv => repr_str (fst kv) ++ ": " ++ repr (snd kv)) items) ++ "}"
  end.

(** [str(v)], which is what a replacement field [{v}] of an f-string
    inserts: a [str] as it is, everything else as its [repr]. *)
Definition str (v : value) : string :=
  match v with
  | VStr s => s
  | _ => repr v
  end.

End Formatting.

(** ** The SDK clients *)

(** Keyword arguments of a call, in the order the call site writes them. *)
Definition kwargs : Type := list (string * value).

(** [breeze_connect.BreezeConnect]: the three methods the application calls.
    A method takes its keyword arguments and the client's state, and returns
    or raises, leaving the client in a new state. *)
Module BreezeConnect.
Inductive method : Type :=
| generate_session
| get_quotes
| get_market_depth.

Definition client (B : Type) : Type :=
  method -> kwargs -> B -> result value * B.
End BreezeConnect.

(** [google.generativeai.GenerativeModel]: [generate_content(prompt)] returns
    a response object whose [text] property is read afterwards; reading it
    can raise as well. *)
Module GenerativeModel.
Record response : Type := { text : result string }.

Definition client (G : Type) : Type :=
  string -> G -> result response * G.
End GenerativeModel.

(** A call the application made on one of the two clients. *)
Inductive invocation : Type :=
| breeze_call (m : BreezeConnect.method) (kw : kwargs)
| model_generate_content (prompt : string).

(** ** Flask *)

(** [flask.request]: all the views use of it is [request.json], which yields
    the parsed body or raises (no JSON content type, malformed body). *)
Record Request : Type := { json : result value }.

Record Response : Type := { status_code : Z; body : value }.

(** A POST whose body parses to the Python value [data]. *)
Definition post (data : value) : Request := {| json := Return data |}.

(** A dict all of whose values are [str]: the shape of the payloads the
    views write out themselves. *)
Definition text_dict (v : value) : bool :=
  match v with
  | VDict items =>
      forallb (fun kv => match snd kv with VStr _ => true | _ => false end) items
  | _ => false
  end.

(** [jsonify(v)]: the response with status 200 carrying [v] when the JSON
    encoder of the application takes [v], the exception of the encoder when
    it does not.  [json_encoder v] is that exception, if any: what the
    encoder refuses depends on the interpreter (an int too long to print,
    containers nested too deep) and is taken as given; a dict of [str] is
    encoded whatever the interpreter. *)
Definition jsonify (json_encoder : value -> option exn) (v : value) : result Response :=
  if text_dict v then Return {| status_code := 200; body := v |}
  else match json_encoder v with
       | Some e => Raise e
       | None => Return {| status_code := 200; body := v |}
       end.

(** A view returning the tuple [(response, code)]. *)
Definition with_status (r : Response) (code : Z) : Response :=
  {| status_code := code; body := body r |}.

(** ** Process-wide state and the monad of a view *)

Section App.

Context {B G : Type}.

(** The module-level names the views read: the secret taken from the
    environment at start-up ([None] when unset) and the two clients. *)
Record World : Type := {
  BREEZE_API_SECRET : value;
  breeze : B;
  model : G
}.

Definition set_breeze (w : World) (b : B) : World :=
  {| BREEZE_API_SECRET := BREEZE_API_SECRET w; breeze := b; model := model w |}.

Definition set_model (w : World) (g : G) : World :=
  {| BREEZE_API_SECRET := BREEZE_API_SECRET w; breeze := breeze w; model := g |}.

(** What running a piece of a view leaves behind: its result, the state of
    the process, and the SDK calls it made, oldest first. *)
Record outcome (A : Type) : Type := {
  returned : result A;
  world : World;
  calls : list invocation
}.
Arguments returned {A} o.
Arguments world {A} o.
Arguments calls {A} o.

Definition M (A : Type) : Type := World -> outcome A.

Definition ret {A} (a : A) : M A :=
  fun w => {| returned := Return a; world := w; calls := [] |}.

(** An expression that touches no state. *)
Definition eval {A} (r : result A) : M A :=
  fun w => {| returned := r; world := w; calls := [] |}.

Definition bind {A C} (c : M A) (k : A -> M C) : M C :=
  fun w =>
    let o := c w in
    match returned o with
    | Return a =>
        let o' := k a (world o) in
        {| returned := returned o'; world := world o';
           calls := calls o ++ calls o' |}
    | Raise e => {| returned := Raise e; world := world o; calls := calls o |}
    end.

(** [try: body  except Exception as e: handler] *)
Definition try_except {A} (body : M A) (handler : exn -> M A) : M A :=
  fun w =>
    let o := body w in
    match returned o with
    | Return a => o
    | Raise e =>
        let o' := handler e (world o) in
        {| returned := returned o'; world := world o';
           calls := calls o ++ calls o' |}
    end.

(** Reading a module-level name. *)
Definition global {A} (name : World -> A) : M A :=
  fun w => {| returned := Return (name w); world := w; calls := [] |}.

Variable breeze_sdk : BreezeConnect.client B.
Variable model_sdk : GenerativeModel.client G.
Variable repr_str : string -> string.
Variable json_encoder : value -> option exn.

(** [breeze.m(k1=v1, ...)] *)
Definition call_breeze (m : BreezeConnect.method) (kw : kwargs) : M value :=
  fun w =>
    let (r, b) := breeze_sdk m kw (breeze w) in
    {| returned := r; world := set_breeze w b; calls := [breeze_call m kw] |}.

(** [model.generate_content(prompt)] *)
Definition call_generate_content (prompt : string) : M GenerativeModel.response :=
  fun w =>
    let (r, g) := model_sdk prompt (model w) in
    {| returned := r; world := set_model w g;
       calls := [model_generate_content prompt] |}.

Notation "x <- c ;; k" := (bind c (fun x => k))
  (at level 100, c at next level, right associativity).
Notation "'try' c 'except' e => h" := (try_except c (fun e => h))
  (at level 100, c at next level, e name, h at next level).

(** ** The views *)

(** POST /api/breeze/admin/api-session *)
Definition set_session (request : Request) : M Response :=
  data <- eval (json request) ;;
  session_token <- eval (py_get data "api_session") ;;
  try (
    api_secret <- global BREEZE_API_SECRET ;;
    _ <- call_breeze BreezeConnect.generate_session
           [("api_secret", api_secret); ("session_token", session_token)] ;;
    eval (jsonify json_encoder
            (VDict [("status", VStr "success");
                    ("message", VStr "Session generated")]))
  ) except e =>
    (response <- eval (jsonify json_encoder
                         (VDict [("status", VStr "error");
                                 ("message", VStr (str_exn e))])) ;;
     ret (with_status response 400)).

(** POST /api/breeze/quotes *)
Definition get_quotes (request : Request) : M Response :=
  data <- eval (json request) ;;
  stock_code <- eval (py_get data "stock_code") ;;
  try (
    res <- call_breeze BreezeConnect.get_quotes
             [("stock_code", stock_code); ("exchange_code", VStr "NSE");
              ("expiry_date", VStr ""); ("product_type", VStr "cash");
              ("right", VStr ""); ("strike_price", VStr "")] ;;
    eval (jsonify json_encoder res)
  ) except e =>
    (response <- eval (jsonify json_encoder
                         (VDict [("status", VStr "error");
                                 ("message", VStr (str_exn e))])) ;;
     ret (with_status response 500)).

(** POST /api/breeze/depth *)
Definition get_depth (request : Request) : M Response :=
  data <- eval (json request) ;;
  stock_code <- eval (py_get data "stock_code") ;;
  try (
    res <- call_breeze BreezeConnect.get_market_depth
             [("stock_code", stock_code); ("exchange_code", VStr "NSE");
              ("product_type", VStr "cash")] ;;
    eval (jsonify json_encoder res)
  ) except e =>
    (response <- eval (jsonify json_encoder
                         (VDict [("status", VStr "error");
                                 ("message", VStr (str_exn e))])) ;;
     ret (with_status response 500)).

(** POST /api/analyze_market *)
Definition analyze_market (request : Request) : M Response :=
  data <- eval (json request) ;;
  log_date <- eval (py_get data "log_date") ;;
  let prompt := "Analyze Nifty 50 for " ++ str repr_str log_date ++ "..." in
  try (
    response <- call_generate_content prompt ;;
    text <- eval (GenerativeModel.text response) ;;
    eval (jsonify json_encoder (VDict [("text", VStr text)]))
  ) except e =>
    (response <- eval (jsonify json_encoder (VDict [("error", VStr (str_exn e))])) ;;
     ret (with_status response 500)).

End App.

Arguments returned {B G A} o.
Arguments world {B G A} o.
Arguments calls {B G A} o.

(** ** Stub clients

    Concrete clients to run the views on.  The brokerage stub keeps the
    session token of the last successful [generate_session]; its two
    look-ups need a session and a [str] stock code and change nothing.  The
    model stub answers while its service is up. *)
Module Stub.

Definition breeze_sdk : BreezeConnect.client (option string) :=
  fun m kw session =>
    match m with
    | BreezeConnect.generate_session =>
        match assoc "session_token" kw with
        | Some (VStr token) => (Return VNone, Some token)
        | _ => (Raise (Exception "Exception" "Could not authenticate credentials"),
                session)
        end
    | BreezeConnect.get_quotes =>
        match session, assoc "stock_code" kw with
        | Some _, Some (VStr code) =>
            (Return (VDict [("Success", VList [VDict [("stock_code", VStr code);
                                                      ("ltp", VInt 2450)]]);
                            ("Status", VInt 200); ("Error", VNone)]),
             session)
        | Some _, _ => (Raise (Exception "TypeError" "stock_code must be a string"),
                        session)
        | None, _ => (Raise (Exception "Exception" "Session key is expired"), session)
        end
    | BreezeConnect.get_market_depth =>
        match session, assoc "stock_code" kw with
        | Some _, Some (VStr code) =>
            (Return (VDict [("Success", VList [VDict [("stock_code", VStr code);
                                                      ("best_bid_price-1", VInt 2449);
                                                      ("best_offer_price-1", VInt 2451)]]);
                            ("Status", VInt 200); ("Error", VNone)]),
             session)
        | Some _, _ => (Raise (Exception "TypeError" "stock_code must be a string"),
                        session)
        | None, _ => (Raise (Exception "Exception" "Session key is expired"), session)
        end
    end.

(** The service is up ([true]) or down; the prompt for 1970-01-01 gets a
    response whose [text] cannot be read. *)
Definition model_sdk : GenerativeModel.client bool :=
  fun prompt up =>
    if up then
      if String.eqb prompt "Analyze Nifty 50 for 1970-01-01..."
      then (Return {| GenerativeModel.text :=
                        Raise (Exception "ValueError" "response has no valid part") |},
            up)
      else (Return {| GenerativeModel.text := Return ("Summary: " ++ prompt) |}, up)
    else (Raise (Exception "ServiceUnavailable" "503 model is overloaded"), up).

(** The encoder of CPython 3.11 and later on the ints of a payload: an int
    of more than 4300 decimal digits cannot be printed (the default of
    [sys.get_int_max_str_digits()]) and [json.dumps] raises ValueError.  The
    bound 10^4300 lies between 2^14284 and 2^14285, so only an int of
    exactly 14285 bits is compared with it. *)
Definition digits_exceeded : exn :=
  Exception "ValueError"
    "Exceeds the limit (4300 digits) for integer string conversion; use sys.set_int_max_str_digits() to increase the limit".

Definition int_error (z : Z) : option exn :=
  let bits := Z.log2 (Z.abs z) in
  if (bits <? 14284)%Z then None
  else if (14284 <? bits)%Z then Some digits_exceeded
       else if (10 ^ 4300 <=? Z.abs z)%Z then Some digits_exceeded else None.

Fixpoint json_encoder (v : value) : option exn :=
  match v with
  | VInt z => int_error z
  | VList items =>
      (fix first (l : list value) : option exn :=
         match l with
         | [] => None
         | x :: rest =>
             match json_encoder x with
             | Some e => Some e
             | None => first rest
             end
         end) items
  | VDict items =>
      (fix first (l : list (string * value)) : option exn :=
         match l with
         | [] => None
         | kv :: rest =>
             match json_encoder (snd kv) with
             | Some e => Some e
             | None => first rest
             end
         end) items
  | _ => None
  end.

(** A brokerage client whose look-ups return a number of 4817 digits, and
    one whose look-ups use up the session. *)
Definition wide_sdk : BreezeConnect.client (option string) :=
  fun m kw session =>
    match m with
    | BreezeConnect.generate_session => (Return VNone, session)
    | _ => (Return (VInt (2 ^ 16000)), session)
    end.


(** Quotes a string the way Python does when it holds no quote, backslash or
    control character. *)
Definition repr_str (s : string) : string := "'" ++ s ++ "'".

(** A process that has authenticated, and one that has not. *)
Definition authenticated : @World (option string) bool :=
  {| BREEZE_API_SECRET := VStr "s3cr3t"; breeze := Some "token-1"; model := true |}.

Definition fresh : @World (option string) bool :=
  {| BREEZE_API_SECRET := VStr "s3cr3t"; breeze := None; model := false |}.

End Stub.

(** ** Routes and the serving of requests *)

(** [isinstance(data, dict)] *)
Definition is_dict (data : value) : bool :=
  match data with
  | VDict _ => true
  | _ => false
  end.

(** The endpoints of the application: Flask names each after its view
    function. *)
Module Endpoint.
Inductive t : Type :=
| set_session
| get_quotes
| get_depth
| analyze_market.
End Endpoint.

(** One [@app.route(rule, methods=[...])] registration. *)
Record Rule : Type := {
  rule : string;
  methods : list string;
  endpoint : Endpoint.t
}.

(** The rules the four decorators of this file register, in their order.
    Flask adds a rule of its own for static files and the method OPTIONS to
    every rule; it answers those itself, no view of this file runs for them,
    and they are not listed. *)
Definition app_routes : list Rule :=
  [ {| rule := "/api/breeze/admin/api-session"; methods := ["POST"];
       endpoint := Endpoint.set_session |};
    {| rule := "/api/breeze/quotes"; methods := ["POST"];
       endpoint := Endpoint.get_quotes |};
    {| rule := "/api/breeze/depth"; methods := ["POST"];
       endpoint := Endpoint.get_depth |};
    {| rule := "/api/analyze_market"; methods := ["POST"];
       endpoint := Endpoint.analyze_market |} ].

(** The endpoint of this file that runs for a request: that of the first
    rule whose path is the request's and whose methods hold the request's
    method ([request.method], in upper case).  The rules have no variable
    part, so a path matches by equality; with no such rule Flask answers on
    its own (404, 405, the automatic OPTIONS, a static file) and no view of
    this file runs. *)
Fixpoint match_rule (rules : list Rule) (method path : string) : option Endpoint.t :=
  match rules with
  | [] => None
  | r :: rest =>
      if (String.eqb (rule r) path && existsb (String.eqb method) (methods r))%bool
      then Some (endpoint r)
      else match_rule rest method path
  end.

(** A request as it reaches the application. *)
Record Incoming : Type := {
  request_method : string;
  request_path : string;
  request_body : Request
}.

Definition is_generate_session (c : invocation) : bool :=
  match c with
  | breeze_call BreezeConnect.generate_session _ => true
  | _ => false
  end.

Definition routed_to_set_session (i : Incoming) : bool :=
  match match_rule app_routes (request_method i) (request_path i) with
  | Some Endpoint.set_session => true
  | _ => false
  end.

Section Server.

Context {B G : Type}.
Variable breeze_sdk : BreezeConnect.client B.
Variable model_sdk : GenerativeModel.client G.
Variable repr_str : string -> string.
Variable json_encoder : value -> option exn.

(** [app.view_functions] *)
Definition view_functions (ep : Endpoint.t) : Request -> @M B G Response :=
  match ep with
  | Endpoint.set_session => set_session breeze_sdk json_encoder
  | Endpoint.get_quotes => get_quotes breeze_sdk json_encoder
  | Endpoint.get_depth => get_depth breeze_sdk json_encoder
  | Endpoint.analyze_market => analyze_market model_sdk repr_str json_encoder
  end.

(** The view run for a request, if any. *)
Definition dispatch_request (i : Incoming) : option (@M B G Response) :=
  match match_rule app_routes (request_method i) (request_path i) with
  | Some ep => Some (view_functions ep (request_body i))
  | None => None
  end.

(** What the process has done after a run of requests: per request what its
    view returned or raised ([None] when no view ran), the state of the
    process at the end, and all SDK calls, oldest first. *)
Record served : Type := {
  responses : list (option (result Response));
  final : @World B G;
  log : list invocation
}.

(** Requests handled one after the other, each view starting from the state
    the previous one left; a view that raises does not stop the process. *)
Fixpoint serve (incoming : list Incoming) (w : @World B G) : served :=
  match incoming with
  | [] => {| responses := []; final := w; log := [] |}
  | i :: rest =>
      match dispatch_request i with
      | None =>
          let s := serve rest w in
          {| responses := None :: responses s; final := final s; log := log s |}
      | Some view =>
          let o := view w in
          let s := serve rest (world o) in
          {| responses := Some (returned o) :: responses s;
             final := final s;
             log := calls o ++ log s |}
      end
  end.

End Server.

Arguments responses {B G} s.
Arguments final {B G} s.
Arguments log {B G} s.

(** ** Start-up *)

(** [os.environ.get(name)]: the variable's text, [None] when it is unset. *)
Fixpoint environ_get (environ : list (string * string)) (name : string) : value :=
  match environ with
  | [] => VNone
  | (n, v) :: rest => if String.eqb name n then VStr v else environ_get rest name
  end.

Section Startup.

Context {B G C : Type}.

(** The three SDK calls of the module body: [configure(api_key=...)] sets up
    the library (its configuration is [C]), [GenerativeModel(name)] makes the
    model client under that configuration, [BreezeConnect(api_key=...)] makes
    the brokerage client.  Each can raise. *)
Variable configure : kwargs -> result C.
Variable new_GenerativeModel : list value -> C -> result G.
Variable new_BreezeConnect : kwargs -> result B.

(** The module body up to the routes: the state the process serves from, or
    the exception that stops the import. *)
Definition module_init (environ : list (string * string)) : result (@World B G) :=
  let BREEZE_API_KEY := environ_get environ "BREEZE_API_KEY" in
  let BREEZE_API_SECRET := environ_get environ "BREEZE_API_SECRET" in
  let GEMINI_API_KEY := environ_get environ "API_KEY" in
  match configure [("api_key", GEMINI_API_KEY)] with
  | Raise e => Raise e
  | Return c =>
      match new_GenerativeModel [VStr "gemini-2.5-flash"] c with
      | Raise e => Raise e
      | Return model =>
          match new_BreezeConnect [("api_key", BREEZE_API_KEY)] with
          | Raise e => Raise e
          | Return breeze =>
              Return {| BREEZE_API_SECRET := BREEZE_API_SECRET;
                        breeze := breeze; model := model |}
          end
      end
  end.

End Startup.

(** Constructors for the stub clients: the brokerage stub wants a key. *)
Module StubStartup.

Definition configure (kw : kwargs) : result unit := Return tt.

Definition new_GenerativeModel (args : list value) (c : unit) : result bool :=
  Return true.

Definition new_BreezeConnect (kw : kwargs) : result (option string) :=
  match assoc "api_key" kw with
  | Some (VStr _) => Return None
  | _ => Raise (Exception "TypeError" "api_key must be a string")
  end.

(** The process right after a start-up with the stub constructors. *)
Definition started : @World (option string) bool :=
  {| BREEZE_API_SECRET := VStr "s3cr3t"; breeze := None; model := true |}.

Definition environ : list (string * string) :=
  [("BREEZE_API_KEY", "key-1"); ("BREEZE_API_SECRET", "s3cr3t")].

(** A session request. *)
Definition session_run : list Incoming :=
  [ {| request_method := "POST"; request_path := "/api/breeze/admin/api-session";
       request_body := post (VDict [("api_session", VStr "token-2")]) |} ].

(** A quote, a GET that reaches no view, and an analysis. *)
Definition lookups_run : list Incoming :=
  [ {| request_method := "POST"; request_path := "/api/breeze/quotes";
       request_body := post (VDict [("stock_code", VStr "RELIND")]) |};
    {| request_method := "GET"; request_path := "/api/breeze/quotes";
       request_body := post (VDict [("stock_code", VStr "RELIND")]) |};
    {| request_method := "POST"; request_path := "/api/analyze_market";
       request_body := post (VDict [("log_date", VStr "2024-01-01")]) |} ].

End StubStartup.

(** ** Running the views *)

Section Properties.

Context {B G : Type}.
Variable breeze_sdk : BreezeConnect.client B.
Variable model_sdk : GenerativeModel.client G.
Variable repr_str : string -> string.
Variable json_encoder : value -> option exn.

Implicit Types (request : Request) (w : @World B G) (d : list (string * value)).
Implicit Types (e : exn) (s : string) (kw : kwargs).

Lemma set_breeze_same w : set_breeze w (breeze w) = w.
Proof. destruct w; reflexivity. Qed.

Lemma set_model_same w : set_model w (model w) = w.
Proof. destruct w; reflexivity. Qed.

(** A payload the views write out themselves is always encoded. *)
Lemma jsonify_text_dict v :
  text_dict v = true ->
  jsonify json_encoder v = Return {| status_code := 200; body := v |}.
Proof. intros H. unfold jsonify. rewrite H. reflexivity. Qed.

(** Where [jsonify] returns, the response is 200 with the value as it is. *)
Lemma jsonify_returns v r :
  jsonify json_encoder v = Return r -> r = {| status_code := 200; body := v |}.
Proof.
  unfold jsonify. destruct (text_dict v); [intros [= <-]; reflexivity |].
  destruct (json_encoder v); [discriminate | intros [= <-]; reflexivity].
Qed.

(** The steps of a view. *)
Lemma bind_return {A C : Type} (a : A) (k : A -> @M B G C) w :
  bind (eval (Return a)) k w = k a w.
Proof. unfold bind, eval. cbn. destruct (k a w); reflexivity. Qed.

Lemma bind_global {A C : Type} (name : @World B G -> A) (k : A -> @M B G C) w :
  bind (global name) k w = k (name w) w.
Proof. unfold bind, global. cbn. destruct (k (name w) w); reflexivity. Qed.

Lemma call_breeze_run m kw w :
  call_breeze breeze_sdk m kw w =
    {| returned := fst (breeze_sdk m kw (breeze w));
       world := set_breeze w (snd (breeze_sdk m kw (breeze w)));
       calls := [breeze_call m kw] |}.
Proof. unfold call_breeze. destruct (breeze_sdk m kw (breeze w)); reflexivity. Qed.

Lemma call_generate_content_run prompt w :
  call_generate_content model_sdk prompt w =
    {| returned := fst (model_sdk prompt (model w));
       world := set_model w (snd (model_sdk prompt (model w)));
       calls := [model_generate_content prompt] |}.
Proof.
  unfold call_generate_content. destruct (model_sdk prompt (model w)); reflexivity.
Qed.

(** A brokerage view on a dict body makes its one call and turns the result
    of that call into a response; the client is left as the call left it. *)
Lemma set_session_run d w :
  set_session breeze_sdk json_encoder (post (VDict d)) w =
    let kw := [("api_secret", BREEZE_API_SECRET w);
               ("session_token", dict_get d "api_session")] in
    let rb := breeze_sdk BreezeConnect.generate_session kw (breeze w) in
    {| returned :=
         Return match fst rb with
                | Return _ =>
                    {| status_code := 200;
                       body := VDict [("status", VStr "success");
                                      ("message", VStr "Session generated")] |}
                | Raise e =>
                    {| status_code := 400;
                       body := VDict [("status", VStr "error");
                                      ("message", VStr (str_exn e))] |}
                end;
       world := set_breeze w (snd rb);
       calls := [breeze_call BreezeConnect.generate_session kw] |}.
Proof.
  unfold set_session, post. cbn [json].
  rewrite bind_return. cbn [py_get]. rewrite bind_return.
  unfold try_except. rewrite bind_global. unfold bind.
  rewrite call_breeze_run. cbn.
  destruct (fst (breeze_sdk _ _ _)) as [v | e]; reflexivity.
Qed.

(** The two look-ups have a second place where the [try] can fail:
    [jsonify(res)] on what the client returned. *)
Lemma get_quotes_run d w :
  get_quotes breeze_sdk json_encoder (post (VDict d)) w =
    let kw := [("stock_code", dict_get d "stock_code");
               ("exchange_code", VStr "NSE"); ("expiry_date", VStr "");
               ("product_type", VStr "cash"); ("right", VStr "");
               ("strike_price", VStr "")] in
    let rb := breeze_sdk BreezeConnect.get_quotes kw (breeze w) in
    {| returned :=
         Return match fst rb with
                | Return res =>
                    match jsonify json_encoder res with
                    | Return response => response
                    | Raise e =>
                        {| status_code := 500;
                           body := VDict [("status", VStr "error");
                                          ("message", VStr (str_exn e))] |}
                    end
                | Raise e =>
                    {| status_code := 500;
                       body := VDict [("status", VStr "error");
                                      ("message", VStr (str_exn e))] |}
                end;
       world := set_breeze w (snd rb);
       calls := [breeze_call BreezeConnect.get_quotes kw] |}.
Proof.
  unfold get_quotes, post. cbn [json].
  rewrite bind_return. cbn [py_get]. rewrite bind_return.
  unfold try_except, bind. rewrite call_breeze_run. cbn -[jsonify].
  destruct (fst (breeze_sdk _ _ _)) as [res | e]; cbn -[jsonify].
  - destruct (jsonify json_encoder res) as [response | e]; reflexivity.
  - reflexivity.
Qed.

Lemma get_depth_run d w :
  get_depth breeze_sdk json_encoder (post (VDict d)) w =
    let kw := [("stock_code", dict_get d "stock_code");
               ("exchange_code", VStr "NSE"); ("product_type", VStr "cash")] in
    let rb := breeze_sdk BreezeConnect.get_market_depth kw (breeze w) in
    {| returned :=
         Return match fst rb with
                | Return res =>
                    match jsonify json_encoder res with
                    | Return response => response
                    | Raise e =>
                        {| status_code := 500;
                           body := VDict [("status", VStr "error");
                                          ("message", VStr (str_exn e))] |}
                    end
                | Raise e =>
                    {| status_code := 500;
                       body := VDict [("status", VStr "error");
                                      ("message", VStr (str_exn e))] |}
                end;
       world := set_breeze w (snd rb);
       calls := [breeze_call BreezeConnect.get_market_depth kw] |}.
Proof.
  unfold get_depth, post. cbn [json].
  rewrite bind_return. cbn [py_get]. rewrite bind_return.
  unfold try_except, bind. rewrite call_breeze_run. cbn -[jsonify].
  destruct (fst (breeze_sdk _ _ _)) as [res | e]; cbn -[jsonify].
  - destruct (jsonify json_encoder res) as [response | e]; reflexivity.
  - reflexivity.
Qed.

(** The analysis view has a second place where its [try] can fail: reading
    [response.text]. *)
Lemma analyze_market_run d w :
  analyze_market model_sdk repr_str json_encoder (post (VDict d)) w =
    let prompt :=
      "Analyze Nifty 50 for " ++ str repr_str (dict_get d "log_date") ++ "..." in
    let rg := model_sdk prompt (model w) in
    {| returned :=
         Return match fst rg with
                | Return response =>
                    match GenerativeModel.text response with
                    | Return t =>
                        {| status_code := 200; body := VDict [("text", VStr t)] |}
                    | Raise e =>
                        {| status_code := 500;
                           body := VDict [("error", VStr (str_exn e))] |}
                    end
                | Raise e =>
                    {| status_code := 500;
                       body := VDict [("error", VStr (str_exn e))] |}
                end;
       world := set_model w (snd rg);
       calls := [model_generate_content prompt] |}.
Proof.
  unfold analyze_market, post. cbn [json].
  rewrite bind_return. cbn [py_get]. rewrite bind_return.
  unfold try_except, bind. rewrite call_generate_content_run. cbn.
  destruct (fst (model_sdk _ _)) as [[[t | e']] | e]; reflexivity.
Qed.

(** ** The brokerage views *)

(** C1, as the code has it: on a dict body whose stock_code is a string,
    when the client's get_quotes returns, the quotes view has called
    get_quotes once, with that code, exchange_code "NSE", product_type "cash"
    and empty expiry_date, right and strike_price; when jsonify takes the
    returned payload the answer is 200 with the payload as it is, and when
    jsonify raises on it the answer is the 500 error payload with the text
    of that exception. *)
Theorem quotes_pass_through d s w res b :
  assoc "stock_code" d = Some (VStr s) ->
  breeze_sdk BreezeConnect.get_quotes
    [("stock_code", VStr s); ("exchange_code", VStr "NSE");
     ("expiry_date", VStr ""); ("product_type", VStr "cash");
     ("right", VStr ""); ("strike_price", VStr "")] (breeze w) = (Return res, b) ->
  calls (get_quotes breeze_sdk json_encoder (post (VDict d)) w) =
    [breeze_call BreezeConnect.get_quotes
       [("stock_code", VStr s); ("exchange_code", VStr "NSE");
        ("expiry_date", VStr ""); ("product_type", VStr "cash");
        ("right", VStr ""); ("strike_price", VStr "")]] /\
  (forall response,
     jsonify json_encoder res = Return response ->
     returned (get_quotes breeze_sdk json_encoder (post (VDict d)) w) =
       Return {| status_code := 200; body := res |}) /\
  (forall e,
     jsonify json_encoder res = Raise e ->
     returned (get_quotes breeze_sdk json_encoder (post (VDict d)) w) =
       Return {| status_code := 500;
                 body := VDict [("status", VStr "error");
                                ("message", VStr (str_exn e))] |}).
Proof.
  intros Hcode Hcall. rewrite get_quotes_run. cbn -[jsonify].
  unfold dict_get. rewrite Hcode, Hcall. cbn -[jsonify]. repeat split.
  - intros response Hjson. rewrite Hjson, (jsonify_returns res response Hjson).
    reflexivity.
  - intros e Hjson. rewrite Hjson. reflexivity.
Qed.

(** C2: on a dict body with an api_session field, the session view calls
    generate_session exactly once, with the process-wide secret and that
    token; when the call returns the answer is 200 with status "success" and
    message "Session generated", when it raises the answer is 400 with status
    "error" and the text of the exception as message. *)
Theorem session_authenticates_once d token w :
  assoc "api_session" d = Some token ->
  calls (set_session breeze_sdk json_encoder (post (VDict d)) w) =
    [breeze_call BreezeConnect.generate_session
       [("api_secret", BREEZE_API_SECRET w); ("session_token", token)]] /\
  (forall v b,
     breeze_sdk BreezeConnect.generate_session
       [("api_secret", BREEZE_API_SECRET w); ("session_token", token)]
       (breeze w) = (Return v, b) ->
     returned (set_session breeze_sdk json_encoder (post (VDict d)) w) =
       Return {| status_code := 200;
                 body := VDict [("status", VStr "success");
                                ("message", VStr "Session generated")] |}) /\
  (forall e b,
     breeze_sdk BreezeConnect.generate_session
       [("api_secret", BREEZE_API_SECRET w); ("session_token", token)]
       (breeze w) = (Raise e, b) ->
     returned (set_session breeze_sdk json_encoder (post (VDict d)) w) =
       Return {| status_code := 400;
                 body := VDict [("status", VStr "error");
                                ("message", VStr (str_exn e))] |}).
Proof.
  intros Htoken. rewrite set_session_run. cbn.
  unfold dict_get. rewrite Htoken.
  repeat split; intros ? ? Hcall; rewrite Hcall; reflexivity.
Qed.

(** C3: on a dict body, when the client call of the quotes view or of the
    depth view raises, the view answers 500 with status "error" and exactly
    the text of that exception as message. *)
Theorem brokerage_failure_is_500 d w :
  (forall e b,
     breeze_sdk BreezeConnect.get_quotes
       [("stock_code", dict_get d "stock_code"); ("exchange_code", VStr "NSE");
        ("expiry_date", VStr ""); ("product_type", VStr "cash");
        ("right", VStr ""); ("strike_price", VStr "")] (breeze w) = (Raise e, b) ->
     returned (get_quotes breeze_sdk json_encoder (post (VDict d)) w) =
       Return {| status_code := 500;
                 body := VDict [("status", VStr "error");
                                ("message", VStr (str_exn e))] |}) /\
  (forall e b,
     breeze_sdk BreezeConnect.get_market_depth
       [("stock_code", dict_get d "stock_code"); ("exchange_code", VStr "NSE");
        ("product_type", VStr "cash")] (breeze w) = (Raise e, b) ->
     returned (get_depth breeze_sdk json_encoder (post (VDict d)) w) =
       Return {| status_code := 500;
                 body := VDict [("status", VStr "error");
                                ("message", VStr (str_exn e))] |}).
Proof.
  split; intros e b Hcall.
  - rewrite get_quotes_run. cbn. rewrite Hcall. reflexivity.
  - rewrite get_depth_run. cbn. rewrite Hcall. reflexivity.
Qed.

(** C4, as the code has it: on a dict body whose stock_code is a string,
    the depth view calls get_market_depth (once, and nothing else) with that
    code, exchange_code "NSE" and product_type "cash"; when the call returns
    and jsonify takes the payload it answers 200 with the payload as it is,
    when jsonify raises on the payload it answers with the 500 error
    payload; and it answers as the quotes view does whenever the two client
    calls come out the same. *)
Theorem depth_like_quotes d s w :
  assoc "stock_code" d = Some (VStr s) ->
  calls (get_depth breeze_sdk json_encoder (post (VDict d)) w) =
    [breeze_call BreezeConnect.get_market_depth
       [("stock_code", VStr s); ("exchange_code", VStr "NSE");
        ("product_type", VStr "cash")]] /\
  (forall res b response,
     breeze_sdk BreezeConnect.get_market_depth
       [("stock_code", VStr s); ("exchange_code", VStr "NSE");
        ("product_type", VStr "cash")] (breeze w) = (Return res, b) ->
     jsonify json_encoder res = Return response ->
     returned (get_depth breeze_sdk json_encoder (post (VDict d)) w) =
       Return {| status_code := 200; body := res |}) /\
  (forall res b e,
     breeze_sdk BreezeConnect.get_market_depth
       [("stock_code", VStr s); ("exchange_code", VStr "NSE");
        ("product_type", VStr "cash")] (breeze w) = (Return res, b) ->
     jsonify json_encoder res = Raise e ->
     returned (get_depth breeze_sdk json_encoder (post (VDict d)) w) =
       Return {| status_code := 500;
                 body := VDict [("status", VStr "error");
                                ("message", VStr (str_exn e))] |}) /\
  (forall r b b',
     breeze_sdk BreezeConnect.get_market_depth
       [("stock_code", VStr s); ("exchange_code", VStr "NSE");
        ("product_type", VStr "cash")] (breeze w) = (r, b) ->
     breeze_sdk BreezeConnect.get_quotes
       [("stock_code", VStr s); ("exchange_code", VStr "NSE");
        ("expiry_date", VStr ""); ("product_type", VStr "cash");
        ("right", VStr ""); ("strike_price", VStr "")] (breeze w) = (r, b') ->
     returned (get_depth breeze_sdk json_encoder (post (VDict d)) w) =
       returned (get_quotes breeze_sdk json_encoder (post (VDict d)) w)).
Proof.
  intros Hcode. rewrite get_depth_run, get_quotes_run. cbn -[jsonify].
  unfold dict_get. rewrite Hcode. repeat split.
  - intros res b response Hcall Hjson. rewrite Hcall. cbn -[jsonify].
    rewrite Hjson, (jsonify_returns res response Hjson). reflexivity.
  - intros res b e Hcall Hjson. rewrite Hcall. cbn -[jsonify].
    rewrite Hjson. reflexivity.
  - intros r b b' Hdepth Hquotes. rewrite Hdepth, Hquotes. reflexivity.
Qed.

(** C7: on a dict body without a stock_code field, the quotes view checks
    nothing up front: it calls get_quotes with stock_code None, it returns a
    response whatever the call does, and when the call raises that response
    is the 500 error payload carrying the text of the exception. *)
Theorem missing_stock_code_is_forwarded d w :
  assoc "stock_code" d = None ->
  calls (get_quotes breeze_sdk json_encoder (post (VDict d)) w) =
    [breeze_call BreezeConnect.get_quotes
       [("stock_code", VNone); ("exchange_code", VStr "NSE");
        ("expiry_date", VStr ""); ("product_type", VStr "cash");
        ("right", VStr ""); ("strike_price", VStr "")]] /\
  (exists resp, returned (get_quotes breeze_sdk json_encoder (post (VDict d)) w) = Return resp) /\
  (forall e b,
     breeze_sdk BreezeConnect.get_quotes
       [("stock_code", VNone); ("exchange_code", VStr "NSE");
        ("expiry_date", VStr ""); ("product_type", VStr "cash");
        ("right", VStr ""); ("strike_price", VStr "")] (breeze w) = (Raise e, b) ->
     returned (get_quotes breeze_sdk json_encoder (post (VDict d)) w) =
       Return {| status_code := 500;
                 body := VDict [("status", VStr "error");
                                ("message", VStr (str_exn e))] |}).
Proof.
  intros Hmissing. rewrite get_quotes_run. cbn.
  unfold dict_get. rewrite Hmissing. repeat split.
  - eexists. reflexivity.
  - intros e b Hcall. rewrite Hcall. reflexivity.
Qed.

(** C9: on a dict body, the depth view's call carries exactly the three
    keyword arguments stock_code, exchange_code "NSE" and product_type
    "cash", without the expiry_date, right and strike_price that the quotes
    view's call carries as empty strings: the two calls differ in their
    arguments as well as in the method. *)
Theorem depth_call_has_three_arguments d w :
  exists kw_depth kw_quotes,
    calls (get_depth breeze_sdk json_encoder (post (VDict d)) w) =
      [breeze_call BreezeConnect.get_market_depth kw_depth] /\
    calls (get_quotes breeze_sdk json_encoder (post (VDict d)) w) =
      [breeze_call BreezeConnect.get_quotes kw_quotes] /\
    kw_depth = [("stock_code", dict_get d "stock_code");
                ("exchange_code", VStr "NSE"); ("product_type", VStr "cash")] /\
    length kw_depth = 3%nat /\
    assoc "expiry_date" kw_depth = None /\
    assoc "right" kw_depth = None /\
    assoc "strike_price" kw_depth = None /\
    assoc "expiry_date" kw_quotes = Some (VStr "") /\
    assoc "right" kw_quotes = Some (VStr "") /\
    assoc "strike_price" kw_quotes = Some (VStr "") /\
    map fst kw_quotes =
      ["stock_code"; "exchange_code"; "expiry_date"; "product_type"; "right";
       "strike_price"].
Proof.
  do 2 eexists. rewrite get_depth_run, get_quotes_run. cbn.
  repeat split; reflexivity.
Qed.

(** ** The analysis view *)

(** C5: on a dict body whose log_date is a string, the analysis view calls
    generate_content once, with one prompt that contains the log_date; when
    the call returns and the text of the response can be read the answer is
    200 with that text under "text"; when either raises the answer is 500
    with the text of the exception under "error". *)
Theorem analysis_prompt_and_answer d s w :
  assoc "log_date" d = Some (VStr s) ->
  let prompt := "Analyze Nifty 50 for " ++ s ++ "..." in
  calls (analyze_market model_sdk repr_str json_encoder (post (VDict d)) w) =
    [model_generate_content prompt] /\
  contains prompt s /\
  (forall response t g,
     model_sdk prompt (model w) = (Return response, g) ->
     GenerativeModel.text response = Return t ->
     returned (analyze_market model_sdk repr_str json_encoder (post (VDict d)) w) =
       Return {| status_code := 200; body := VDict [("text", VStr t)] |}) /\
  (forall e g,
     model_sdk prompt (model w) = (Raise e, g) ->
     returned (analyze_market model_sdk repr_str json_encoder (post (VDict d)) w) =
       Return {| status_code := 500; body := VDict [("error", VStr (str_exn e))] |}) /\
  (forall response e g,
     model_sdk prompt (model w) = (Return response, g) ->
     GenerativeModel.text response = Raise e ->
     returned (analyze_market model_sdk repr_str json_encoder (post (VDict d)) w) =
       Return {| status_code := 500; body := VDict [("error", VStr (str_exn e))] |}).
Proof.
  intros Hdate prompt. rewrite analyze_market_run. cbn.
  unfold dict_get. rewrite Hdate. cbn. fold prompt. repeat split.
  - exists "Analyze Nifty 50 for ", "...". reflexivity.
  - intros response t g Hcall Htext. rewrite Hcall. cbn. rewrite Htext. reflexivity.
  - intros e g Hcall. rewrite Hcall. reflexivity.
  - intros response e g Hcall Htext. rewrite Hcall. cbn. rewrite Htext. reflexivity.
Qed.

(** C10: on a dict body the analysis view returns a response in every case,
    and the one prompt it sends is "Analyze Nifty 50 for ", then the text of
    the body's log_date, then "...": a string as it is, an int in decimal,
    True or False, a float as Python prints it, a list or a dict as its
    repr, and None both for a null log_date and for a body without
    log_date. *)
Theorem analysis_prompt_template d w :
  (exists resp,
     returned (analyze_market model_sdk repr_str json_encoder (post (VDict d)) w) =
       Return resp) /\
  calls (analyze_market model_sdk repr_str json_encoder (post (VDict d)) w) =
    [model_generate_content
       ("Analyze Nifty 50 for "
          ++ match assoc "log_date" d with
             | None => "None"
             | Some VNone => "None"
             | Some (VBool true) => "True"
             | Some (VBool false) => "False"
             | Some (VInt z) => string_of_Z z
             | Some (VFloat literal) => literal
             | Some (VStr s) => s
             | Some (VList items) =>
                 "[" ++ join ", " (map (repr repr_str) items) ++ "]"
             | Some (VDict items) =>
                 "{" ++ join ", "
                          (map (fun kv => repr_str (fst kv) ++ ": "
                                            ++ repr repr_str (snd kv)) items)
                     ++ "}"
             end
          ++ "...")].
Proof.
  rewrite analyze_market_run. cbn. split.
  - eexists. reflexivity.
  - unfold dict_get. destruct (assoc "log_date" d) as [[| [] | | | | |] |];
      reflexivity.
Qed.

(** ** Failures and state across the four views *)

(** C6, as the code has it: on a dict body no view raises.  Each returns a
    response, and every failure on the way is turned into the JSON error
    payload with the view's fixed code, 400 for the session view and 500 for
    the other three: a client call that raises, a payload of a look-up that
    jsonify cannot encode, a response of the model whose text cannot be
    read.  Otherwise the answer is 200. *)
Theorem failures_caught_on_dict_bodies d w :
  (exists resp,
     returned (set_session breeze_sdk json_encoder (post (VDict d)) w) = Return resp /\
     match fst (breeze_sdk BreezeConnect.generate_session
                  [("api_secret", BREEZE_API_SECRET w);
                   ("session_token", dict_get d "api_session")] (breeze w)) with
     | Raise e =>
         resp = {| status_code := 400;
                   body := VDict [("status", VStr "error");
                                  ("message", VStr (str_exn e))] |}
     | Return _ =>
         resp = {| status_code := 200;
                   body := VDict [("status", VStr "success");
                                  ("message", VStr "Session generated")] |}
     end) /\
  (exists resp,
     returned (get_quotes breeze_sdk json_encoder (post (VDict d)) w) = Return resp /\
     match fst (breeze_sdk BreezeConnect.get_quotes
                  [("stock_code", dict_get d "stock_code");
                   ("exchange_code", VStr "NSE"); ("expiry_date", VStr "");
                   ("product_type", VStr "cash"); ("right", VStr "");
                   ("strike_price", VStr "")] (breeze w)) with
     | Raise e =>
         resp = {| status_code := 500;
                   body := VDict [("status", VStr "error");
                                  ("message", VStr (str_exn e))] |}
     | Return res =>
         match jsonify json_encoder res with
         | Raise e =>
             resp = {| status_code := 500;
                       body := VDict [("status", VStr "error");
                                      ("message", VStr (str_exn e))] |}
         | Return _ => resp = {| status_code := 200; body := res |}
         end
     end) /\
  (exists resp,
     returned (get_depth breeze_sdk json_encoder (post (VDict d)) w) = Return resp /\
     match fst (breeze_sdk BreezeConnect.get_market_depth
                  [("stock_code", dict_get d "stock_code");
                   ("exchange_code", VStr "NSE"); ("product_type", VStr "cash")]
                  (breeze w)) with
     | Raise e =>
         resp = {| status_code := 500;
                   body := VDict [("status", VStr "error");
                                  ("message", VStr (str_exn e))] |}
     | Return res =>
         match jsonify json_encoder res with
         | Raise e =>
             resp = {| status_code := 500;
                       body := VDict [("status", VStr "error");
                                      ("message", VStr (str_exn e))] |}
         | Return _ => resp = {| status_code := 200; body := res |}
         end
     end) /\
  (exists resp,
     returned (analyze_market model_sdk repr_str json_encoder (post (VDict d)) w) =
       Return resp /\
     match fst (model_sdk
                  ("Analyze Nifty 50 for "
                     ++ str repr_str (dict_get d "log_date") ++ "...")
                  (model w)) with
     | Raise e =>
         resp = {| status_code := 500; body := VDict [("error", VStr (str_exn e))] |}
     | Return response =>
         match GenerativeModel.text response with
         | Raise e =>
             resp = {| status_code := 500;
                       body := VDict [("error", VStr (str_exn e))] |}
         | Return t =>
             resp = {| status_code := 200; body := VDict [("text", VStr t)] |}
         end
     end).
Proof.
  rewrite set_session_run, get_quotes_run, get_depth_run, analyze_market_run.
  cbn -[jsonify]. repeat split.
  - eexists; split; [reflexivity |].
    destruct (fst (breeze_sdk BreezeConnect.generate_session _ _)); reflexivity.
  - eexists; split; [reflexivity |].
    destruct (fst (breeze_sdk BreezeConnect.get_quotes _ _)) as [res | e];
      [| reflexivity].
    destruct (jsonify json_encoder res) as [response | e] eqn:Hjson;
      [apply (jsonify_returns res response Hjson) | reflexivity].
  - eexists; split; [reflexivity |].
    destruct (fst (breeze_sdk BreezeConnect.get_market_depth _ _)) as [res | e];
      [| reflexivity].
    destruct (jsonify json_encoder res) as [response | e] eqn:Hjson;
      [apply (jsonify_returns res response Hjson) | reflexivity].
  - eexists; split; [reflexivity |].
    destruct (fst (model_sdk _ _)) as [[[t | e']] | e]; reflexivity.
Qed.

(** What a view leaves behind on any request.  Before the [try] nothing is
    called; inside it there is the one client call. *)
Lemma get_quotes_frame request w :
  (exists kw,
     world (get_quotes breeze_sdk json_encoder request w) =
       set_breeze w (snd (breeze_sdk BreezeConnect.get_quotes kw (breeze w))) /\
     calls (get_quotes breeze_sdk json_encoder request w) =
       [breeze_call BreezeConnect.get_quotes kw]) \/
  (world (get_quotes breeze_sdk json_encoder request w) = w /\
   calls (get_quotes breeze_sdk json_encoder request w) = []).
Proof.
  destruct request as [[data | e]]; [destruct data |]; try (right; split; reflexivity).
  left. change {| json := Return (VDict items) |} with (post (VDict items)).
  rewrite get_quotes_run. cbn. eexists; split; reflexivity.
Qed.

Lemma get_depth_frame request w :
  (exists kw,
     world (get_depth breeze_sdk json_encoder request w) =
       set_breeze w (snd (breeze_sdk BreezeConnect.get_market_depth kw (breeze w))) /\
     calls (get_depth breeze_sdk json_encoder request w) =
       [breeze_call BreezeConnect.get_market_depth kw]) \/
  (world (get_depth breeze_sdk json_encoder request w) = w /\
   calls (get_depth breeze_sdk json_encoder request w) = []).
Proof.
  destruct request as [[data | e]]; [destruct data |]; try (right; split; reflexivity).
  left. change {| json := Return (VDict items) |} with (post (VDict items)).
  rewrite get_depth_run. cbn. eexists; split; reflexivity.
Qed.

Lemma analyze_market_frame request w :
  (exists prompt,
     world (analyze_market model_sdk repr_str json_encoder request w) =
       set_model w (snd (model_sdk prompt (model w))) /\
     calls (analyze_market model_sdk repr_str json_encoder request w) =
       [model_generate_content prompt]) \/
  (world (analyze_market model_sdk repr_str json_encoder request w) = w /\
   calls (analyze_market model_sdk repr_str json_encoder request w) = []).
Proof.
  destruct request as [[data | e]]; [destruct data |]; try (right; split; reflexivity).
  left. change {| json := Return (VDict items) |} with (post (VDict items)).
  rewrite analyze_market_run. cbn. eexists; split; reflexivity.
Qed.


End Properties.

(** ** The views on the stub clients *)

Lemma stub_get_quotes_reads kw session :
  snd (Stub.breeze_sdk BreezeConnect.get_quotes kw session) = session.
Proof.
  unfold Stub.breeze_sdk.
  destruct session; [destruct (assoc "stock_code" kw) as [[] |] |]; reflexivity.
Qed.

Lemma stub_get_market_depth_reads kw session :
  snd (Stub.breeze_sdk BreezeConnect.get_market_depth kw session) = session.
Proof.
  unfold Stub.breeze_sdk.
  destruct session; [destruct (assoc "stock_code" kw) as [[] |] |]; reflexivity.
Qed.

Lemma stub_generate_content_reads prompt up :
  snd (Stub.model_sdk prompt up) = up.
Proof.
  unfold Stub.model_sdk. destruct up; [destruct (String.eqb _ _) |]; reflexivity.
Qed.

(** A quote for RELIND once authenticated; and a client whose quote is a
    number too long to print, which jsonify refuses. *)
Lemma quotes_pass_through_witness :
  assoc "stock_code" [("stock_code", VStr "RELIND")] = Some (VStr "RELIND") /\
  calls (get_quotes Stub.breeze_sdk Stub.json_encoder
           (post (VDict [("stock_code", VStr "RELIND")])) Stub.authenticated) =
    [breeze_call BreezeConnect.get_quotes
       [("stock_code", VStr "RELIND"); ("exchange_code", VStr "NSE");
        ("expiry_date", VStr ""); ("product_type", VStr "cash");
        ("right", VStr ""); ("strike_price", VStr "")]] /\
  returned (get_quotes Stub.breeze_sdk Stub.json_encoder
              (post (VDict [("stock_code", VStr "RELIND")])) Stub.authenticated) =
    Return {| status_code := 200;
              body := VDict [("Success", VList [VDict [("stock_code", VStr "RELIND");
                                                       ("ltp", VInt 2450)]]);
                             ("Status", VInt 200); ("Error", VNone)] |} /\
  returned (get_quotes Stub.wide_sdk Stub.json_encoder
              (post (VDict [("stock_code", VStr "RELIND")])) Stub.authenticated) =
    Return {| status_code := 500;
              body := VDict [("status", VStr "error");
                             ("message",
                              VStr "Exceeds the limit (4300 digits) for integer string conversion; use sys.set_int_max_str_digits() to increase the limit")] |}.
Proof.
  split; [reflexivity |].
  destruct (quotes_pass_through Stub.breeze_sdk Stub.json_encoder
              [("stock_code", VStr "RELIND")] "RELIND" Stub.authenticated
              _ (Some "token-1") eq_refl eq_refl) as [Hcalls [Hok _]].
  destruct (quotes_pass_through Stub.wide_sdk Stub.json_encoder
              [("stock_code", VStr "RELIND")] "RELIND" Stub.authenticated
              _ (Some "token-1") eq_refl eq_refl) as [_ [_ Hrefused]].
  split; [exact Hcalls |]. split.
  - refine (Hok _ _). reflexivity.
  - exact (Hrefused Stub.digits_exceeded eq_refl).
Defined.

(** C1, as the claim states it, fails: the client's get_quotes returns, here
    an int of 4817 digits, jsonify raises on it inside the [try], and the
    answer is 500 with the error payload, not 200 with the payload. *)
Lemma quotes_payload_refused :
  Stub.wide_sdk BreezeConnect.get_quotes
    [("stock_code", VStr "RELIND"); ("exchange_code", VStr "NSE");
     ("expiry_date", VStr ""); ("product_type", VStr "cash");
     ("right", VStr ""); ("strike_price", VStr "")] (Some "token-1") =
    (Return (VInt (2 ^ 16000)), Some "token-1") /\
  returned (get_quotes Stub.wide_sdk Stub.json_encoder
              (post (VDict [("stock_code", VStr "RELIND")])) Stub.authenticated) =
    Return {| status_code := 500;
              body := VDict [("status", VStr "error");
                             ("message",
                              VStr "Exceeds the limit (4300 digits) for integer string conversion; use sys.set_int_max_str_digits() to increase the limit")] |}.
Proof. split; reflexivity. Qed.

(** A token the stub accepts, and one it refuses. *)
Lemma session_authenticates_once_witness :
  assoc "api_session" [("api_session", VStr "token-2")] = Some (VStr "token-2") /\
  assoc "api_session" [("api_session", VInt 7)] = Some (VInt 7) /\
  calls (set_session Stub.breeze_sdk Stub.json_encoder
           (post (VDict [("api_session", VStr "token-2")])) Stub.fresh) =
    [breeze_call BreezeConnect.generate_session
       [("api_secret", VStr "s3cr3t"); ("session_token", VStr "token-2")]] /\
  returned (set_session Stub.breeze_sdk Stub.json_encoder
              (post (VDict [("api_session", VStr "token-2")])) Stub.fresh) =
    Return {| status_code := 200;
              body := VDict [("status", VStr "success");
                             ("message", VStr "Session generated")] |} /\
  returned (set_session Stub.breeze_sdk Stub.json_encoder
              (post (VDict [("api_session", VInt 7)])) Stub.fresh) =
    Return {| status_code := 400;
              body := VDict [("status", VStr "error");
                             ("message", VStr "Could not authenticate credentials")] |}.
Proof.
  split; [reflexivity |]. split; [reflexivity |].
  destruct (session_authenticates_once Stub.breeze_sdk Stub.json_encoder
              [("api_session", VStr "token-2")] (VStr "token-2") Stub.fresh
              eq_refl) as [Hcalls [Hok _]].
  destruct (session_authenticates_once Stub.breeze_sdk Stub.json_encoder
              [("api_session", VInt 7)] (VInt 7) Stub.fresh
              eq_refl) as [_ [_ Hfail]].
  split; [exact Hcalls |]. split.
  - exact (Hok VNone (Some "token-2") eq_refl).
  - exact (Hfail (Exception "Exception" "Could not authenticate credentials")
             None eq_refl).
Defined.

(** Both look-ups before any session was generated. *)
Lemma brokerage_failure_is_500_witness :
  returned (get_quotes Stub.breeze_sdk Stub.json_encoder
              (post (VDict [("stock_code", VStr "RELIND")])) Stub.fresh) =
    Return {| status_code := 500;
              body := VDict [("status", VStr "error");
                             ("message", VStr "Session key is expired")] |} /\
  returned (get_depth Stub.breeze_sdk Stub.json_encoder
              (post (VDict [("stock_code", VStr "RELIND")])) Stub.fresh) =
    Return {| status_code := 500;
              body := VDict [("status", VStr "error");
                             ("message", VStr "Session key is expired")] |}.
Proof.
  destruct (brokerage_failure_is_500 Stub.breeze_sdk Stub.json_encoder
              [("stock_code", VStr "RELIND")] Stub.fresh) as [Hquotes Hdepth].
  split.
  - exact (Hquotes (Exception "Exception" "Session key is expired") None eq_refl).
  - exact (Hdepth (Exception "Exception" "Session key is expired") None eq_refl).
Defined.

(** Market depth for RELIND once authenticated; a depth too long to print;
    and before any session, the same answer as the quotes view. *)
Lemma depth_like_quotes_witness :
  assoc "stock_code" [("stock_code", VStr "RELIND")] = Some (VStr "RELIND") /\
  calls (get_depth Stub.breeze_sdk Stub.json_encoder
           (post (VDict [("stock_code", VStr "RELIND")])) Stub.authenticated) =
    [breeze_call BreezeConnect.get_market_depth
       [("stock_code", VStr "RELIND"); ("exchange_code", VStr "NSE");
        ("product_type", VStr "cash")]] /\
  returned (get_depth Stub.breeze_sdk Stub.json_encoder
              (post (VDict [("stock_code", VStr "RELIND")])) Stub.authenticated) =
    Return {| status_code := 200;
              body := VDict [("Success", VList [VDict [("stock_code", VStr "RELIND");
                                                       ("best_bid_price-1", VInt 2449);
                                                       ("best_offer_price-1", VInt 2451)]]);
                             ("Status", VInt 200); ("Error", VNone)] |} /\
  returned (get_depth Stub.wide_sdk Stub.json_encoder
              (post (VDict [("stock_code", VStr "RELIND")])) Stub.authenticated) =
    Return {| status_code := 500;
              body := VDict [("status", VStr "error");
                             ("message",
                              VStr "Exceeds the limit (4300 digits) for integer string conversion; use sys.set_int_max_str_digits() to increase the limit")] |} /\
  returned (get_depth Stub.breeze_sdk Stub.json_encoder
              (post (VDict [("stock_code", VStr "RELIND")])) Stub.fresh) =
    returned (get_quotes Stub.breeze_sdk Stub.json_encoder
                (post (VDict [("stock_code", VStr "RELIND")])) Stub.fresh).
Proof.
  split; [reflexivity |].
  destruct (depth_like_quotes Stub.breeze_sdk Stub.json_encoder
              [("stock_code", VStr "RELIND")] "RELIND" Stub.authenticated
              eq_refl) as [Hcalls [Hok _]].
  destruct (depth_like_quotes Stub.wide_sdk Stub.json_encoder
              [("stock_code", VStr "RELIND")] "RELIND" Stub.authenticated
              eq_refl) as [_ [_ [Hrefused _]]].
  destruct (depth_like_quotes Stub.breeze_sdk Stub.json_encoder
              [("stock_code", VStr "RELIND")] "RELIND" Stub.fresh
              eq_refl) as [_ [_ [_ Hsame]]].
  split; [exact Hcalls |]. split; [| split].
  - refine (Hok _ (Some "token-1") _ eq_refl _). reflexivity.
  - exact (Hrefused (VInt (2 ^ 16000)) (Some "token-1") Stub.digits_exceeded
             eq_refl eq_refl).
  - exact (Hsame (Raise (Exception "Exception" "Session key is expired"))
             None None eq_refl eq_refl).
Defined.

(** C4, as the claim states it, fails: the client's get_market_depth
    returns, here an int of 4817 digits, jsonify raises on it inside the
    [try], and the answer is 500 with the error payload, not 200 with the
    payload. *)
Lemma depth_payload_refused :
  Stub.wide_sdk BreezeConnect.get_market_depth
    [("stock_code", VStr "RELIND"); ("exchange_code", VStr "NSE");
     ("product_type", VStr "cash")] (Some "token-1") =
    (Return (VInt (2 ^ 16000)), Some "token-1") /\
  returned (get_depth Stub.wide_sdk Stub.json_encoder
              (post (VDict [("stock_code", VStr "RELIND")])) Stub.authenticated) =
    Return {| status_code := 500;
              body := VDict [("status", VStr "error");
                             ("message",
                              VStr "Exceeds the limit (4300 digits) for integer string conversion; use sys.set_int_max_str_digits() to increase the limit")] |}.
Proof. split; reflexivity. Qed.

(** The analysis of 2024-01-01 with the model up and with it down, and a
    response whose text cannot be read. *)
Lemma analysis_prompt_and_answer_witness :
  assoc "log_date" [("log_date", VStr "2024-01-01")] = Some (VStr "2024-01-01") /\
  calls (analyze_market Stub.model_sdk Stub.repr_str Stub.json_encoder
           (post (VDict [("log_date", VStr "2024-01-01")])) Stub.authenticated) =
    [model_generate_content "Analyze Nifty 50 for 2024-01-01..."] /\
  contains "Analyze Nifty 50 for 2024-01-01..." "2024-01-01" /\
  returned (analyze_market Stub.model_sdk Stub.repr_str Stub.json_encoder
              (post (VDict [("log_date", VStr "2024-01-01")])) Stub.authenticated) =
    Return {| status_code := 200;
              body := VDict [("text",
                              VStr "Summary: Analyze Nifty 50 for 2024-01-01...")] |} /\
  returned (analyze_market Stub.model_sdk Stub.repr_str Stub.json_encoder
              (post (VDict [("log_date", VStr "2024-01-01")])) Stub.fresh) =
    Return {| status_code := 500;
              body := VDict [("error", VStr "503 model is overloaded")] |} /\
  returned (analyze_market Stub.model_sdk Stub.repr_str Stub.json_encoder
              (post (VDict [("log_date", VStr "1970-01-01")])) Stub.authenticated) =
    Return {| status_code := 500;
              body := VDict [("error", VStr "response has no valid part")] |}.
Proof.
  split; [reflexivity |].
  destruct (analysis_prompt_and_answer Stub.model_sdk Stub.repr_str
              Stub.json_encoder
              [("log_date", VStr "2024-01-01")] "2024-01-01" Stub.authenticated
              eq_refl) as [Hcalls [Hin [Hok _]]].
  destruct (analysis_prompt_and_answer Stub.model_sdk Stub.repr_str
              Stub.json_encoder
              [("log_date", VStr "2024-01-01")] "2024-01-01" Stub.fresh
              eq_refl) as [_ [_ [_ [Hdown _]]]].
  destruct (analysis_prompt_and_answer Stub.model_sdk Stub.repr_str
              Stub.json_encoder
              [("log_date", VStr "1970-01-01")] "1970-01-01" Stub.authenticated
              eq_refl) as [_ [_ [_ [_ Htext]]]].
  split; [exact Hcalls |]. split; [exact Hin |]. split; [| split].
  - exact (Hok _ _ true eq_refl eq_refl).
  - exact (Hdown (Exception "ServiceUnavailable" "503 model is overloaded")
             false eq_refl).
  - exact (Htext _ (Exception "ValueError" "response has no valid part")
             true eq_refl eq_refl).
Defined.

(** An empty JSON object posted to the quotes route. *)
Lemma missing_stock_code_is_forwarded_witness :
  assoc "stock_code" [] = None /\
  calls (get_quotes Stub.breeze_sdk Stub.json_encoder (post (VDict []))
           Stub.authenticated) =
    [breeze_call BreezeConnect.get_quotes
       [("stock_code", VNone); ("exchange_code", VStr "NSE");
        ("expiry_date", VStr ""); ("product_type", VStr "cash");
        ("right", VStr ""); ("strike_price", VStr "")]] /\
  returned (get_quotes Stub.breeze_sdk Stub.json_encoder (post (VDict []))
              Stub.authenticated) =
    Return {| status_code := 500;
              body := VDict [("status", VStr "error");
                             ("message", VStr "stock_code must be a string")] |}.
Proof.
  split; [reflexivity |].
  destruct (missing_stock_code_is_forwarded Stub.breeze_sdk Stub.json_encoder []
              Stub.authenticated eq_refl) as [Hcalls [_ Hraise]].
  split; [exact Hcalls |].
  exact (Hraise (Exception "TypeError" "stock_code must be a string")
           (Some "token-1") eq_refl).
Defined.

(** The prompt for each kind of log_date a JSON body can carry. *)
Lemma analysis_prompt_template_witness :
  calls (analyze_market Stub.model_sdk Stub.repr_str Stub.json_encoder
           (post (VDict [("log_date", VStr "2024-01-01")])) Stub.authenticated) =
    [model_generate_content "Analyze Nifty 50 for 2024-01-01..."] /\
  calls (analyze_market Stub.model_sdk Stub.repr_str Stub.json_encoder
           (post (VDict [("log_date", VInt 20240101)])) Stub.authenticated) =
    [model_generate_content "Analyze Nifty 50 for 20240101..."] /\
  calls (analyze_market Stub.model_sdk Stub.repr_str Stub.json_encoder
           (post (VDict [("log_date", VInt (-5))])) Stub.authenticated) =
    [model_generate_content "Analyze Nifty 50 for -5..."] /\
  calls (analyze_market Stub.model_sdk Stub.repr_str Stub.json_encoder
           (post (VDict [("log_date", VBool true)])) Stub.authenticated) =
    [model_generate_content "Analyze Nifty 50 for True..."] /\
  calls (analyze_market Stub.model_sdk Stub.repr_str Stub.json_encoder
           (post (VDict [("log_date", VFloat "1.5")])) Stub.authenticated) =
    [model_generate_content "Analyze Nifty 50 for 1.5..."] /\
  calls (analyze_market Stub.model_sdk Stub.repr_str Stub.json_encoder
           (post (VDict [("log_date", VList [VStr "a"; VInt 1; VNone])]))
           Stub.authenticated) =
    [model_generate_content "Analyze Nifty 50 for ['a', 1, None]..."] /\
  calls (analyze_market Stub.model_sdk Stub.repr_str Stub.json_encoder
           (post (VDict [("log_date", VDict [("y", VInt 2024)])]))
           Stub.authenticated) =
    [model_generate_content "Analyze Nifty 50 for {'y': 2024}..."] /\
  calls (analyze_market Stub.model_sdk Stub.repr_str Stub.json_encoder
           (post (VDict [("log_date", VNone)])) Stub.authenticated) =
    [model_generate_content "Analyze Nifty 50 for None..."] /\
  calls (analyze_market Stub.model_sdk Stub.repr_str Stub.json_encoder
           (post (VDict [("date", VStr "2024-01-01")])) Stub.authenticated) =
    [model_generate_content "Analyze Nifty 50 for None..."].
Proof.
  pose proof (fun d =>
                proj2 (analysis_prompt_template Stub.model_sdk Stub.repr_str
                         Stub.json_encoder d Stub.authenticated)) as prompt_of.
  exact (conj (prompt_of [("log_date", VStr "2024-01-01")])
        (conj (prompt_of [("log_date", VInt 20240101)])
        (conj (prompt_of [("log_date", VInt (-5))])
        (conj (prompt_of [("log_date", VBool true)])
        (conj (prompt_of [("log_date", VFloat "1.5")])
        (conj (prompt_of [("log_date", VList [VStr "a"; VInt 1; VNone])])
        (conj (prompt_of [("log_date", VDict [("y", VInt 2024)])])
        (conj (prompt_of [("log_date", VNone)])
              (prompt_of [("date", VStr "2024-01-01")]))))))))).
Defined.

(** C6, as the claim states it, fails: a body that is a JSON array is not
    looked at inside any [try]; [data.get] raises AttributeError and the
    exception leaves each of the four views. *)
Lemma failure_before_try_escapes :
  returned (set_session Stub.breeze_sdk Stub.json_encoder (post (VList []))
              Stub.authenticated) =
    Raise (Exception "AttributeError" "'list' object has no attribute 'get'") /\
  returned (get_quotes Stub.breeze_sdk Stub.json_encoder (post (VList []))
              Stub.authenticated) =
    Raise (Exception "AttributeError" "'list' object has no attribute 'get'") /\
  returned (get_depth Stub.breeze_sdk Stub.json_encoder (post (VList []))
              Stub.authenticated) =
    Raise (Exception "AttributeError" "'list' object has no attribute 'get'") /\
  returned (analyze_market Stub.model_sdk Stub.repr_str Stub.json_encoder
              (post (VList [])) Stub.authenticated) =
    Raise (Exception "AttributeError" "'list' object has no attribute 'get'").
Proof. repeat split; reflexivity. Qed.


(** ** Further properties of the views *)

Section Views.

Context {B G : Type}.
Variable breeze_sdk : BreezeConnect.client B.
Variable model_sdk : GenerativeModel.client G.
Variable repr_str : string -> string.
Variable json_encoder : value -> option exn.

Implicit Types (request : Request) (w : @World B G) (d : list (string * value)).
Implicit Types (e : exn) (data : value) (kw : kwargs).

Lemma set_session_frame request w :
  (exists kw,
     world (set_session breeze_sdk json_encoder request w) =
       set_breeze w (snd (breeze_sdk BreezeConnect.generate_session kw (breeze w))) /\
     calls (set_session breeze_sdk json_encoder request w) =
       [breeze_call BreezeConnect.generate_session kw] /\
     assoc "api_secret" kw = Some (BREEZE_API_SECRET w)) \/
  (world (set_session breeze_sdk json_encoder request w) = w /\
   calls (set_session breeze_sdk json_encoder request w) = []).
Proof.
  destruct request as [[data | e]]; [destruct data |]; try (right; split; reflexivity).
  left. change {| json := Return (VDict items) |} with (post (VDict items)).
  rewrite set_session_run. cbn. eexists; repeat split; reflexivity.
Qed.

(** X1: a body that is not a dict stops every view at [data.get], before its
    [try]: the view raises AttributeError naming the type of the body, no
    client is called and the state of the process is as before. *)
Theorem body_not_a_dict_raises data w :
  is_dict data = false ->
  let stopped :=
    {| returned :=
         Raise (Exception "AttributeError"
                  ("'" ++ type_name data ++ "' object has no attribute 'get'"));
       world := w; calls := [] |} in
  set_session breeze_sdk json_encoder (post data) w = stopped /\
  get_quotes breeze_sdk json_encoder (post data) w = stopped /\
  get_depth breeze_sdk json_encoder (post data) w = stopped /\
  analyze_market model_sdk repr_str json_encoder (post data) w = stopped.
Proof.
  intros Hdict. destruct data; try discriminate Hdict; repeat split; reflexivity.
Qed.

(** X2: when [request.json] itself raises, every view lets that very
    exception through: no error payload is built, no client is called and
    the state of the process is as before. *)
Theorem json_failure_propagates e w :
  let stopped := {| returned := Raise e; world := w; calls := [] |} in
  set_session breeze_sdk json_encoder {| json := Raise e |} w = stopped /\
  get_quotes breeze_sdk json_encoder {| json := Raise e |} w = stopped /\
  get_depth breeze_sdk json_encoder {| json := Raise e |} w = stopped /\
  analyze_market model_sdk repr_str json_encoder {| json := Raise e |} w = stopped.
Proof. repeat split; reflexivity. Qed.

(** X3: a view looks at one field of the body and nothing else: on a dict
    body it does exactly what it does on the body reduced to that field, so
    other fields are ignored, and a field that is absent is the same as one
    that is null. *)
Theorem only_the_named_field_matters d w :
  set_session breeze_sdk json_encoder (post (VDict d)) w =
    set_session breeze_sdk json_encoder
      (post (VDict [("api_session", dict_get d "api_session")])) w /\
  get_quotes breeze_sdk json_encoder (post (VDict d)) w =
    get_quotes breeze_sdk json_encoder
      (post (VDict [("stock_code", dict_get d "stock_code")])) w /\
  get_depth breeze_sdk json_encoder (post (VDict d)) w =
    get_depth breeze_sdk json_encoder
      (post (VDict [("stock_code", dict_get d "stock_code")])) w /\
  analyze_market model_sdk repr_str json_encoder (post (VDict d)) w =
    analyze_market model_sdk repr_str json_encoder
      (post (VDict [("log_date", dict_get d "log_date")])) w /\
  set_session breeze_sdk json_encoder (post (VDict [])) w =
    set_session breeze_sdk json_encoder (post (VDict [("api_session", VNone)])) w /\
  get_quotes breeze_sdk json_encoder (post (VDict [])) w =
    get_quotes breeze_sdk json_encoder (post (VDict [("stock_code", VNone)])) w /\
  get_depth breeze_sdk json_encoder (post (VDict [])) w =
    get_depth breeze_sdk json_encoder (post (VDict [("stock_code", VNone)])) w /\
  analyze_market model_sdk repr_str json_encoder (post (VDict [])) w =
    analyze_market model_sdk repr_str json_encoder (post (VDict [("log_date", VNone)])) w.
Proof.
  rewrite !set_session_run, !get_quotes_run, !get_depth_run, !analyze_market_run.
  repeat split; reflexivity.
Qed.

(** X4: whatever the request, a view calls a client at most once, and only
    its own method: generate_session for the session view, get_quotes for the
    quotes view, get_market_depth for the depth view, generate_content for
    the analysis view.  Nothing is retried after a failure. *)
Theorem at_most_one_call request w :
  (calls (set_session breeze_sdk json_encoder request w) = [] \/
   exists kw, calls (set_session breeze_sdk json_encoder request w) =
                [breeze_call BreezeConnect.generate_session kw]) /\
  (calls (get_quotes breeze_sdk json_encoder request w) = [] \/
   exists kw, calls (get_quotes breeze_sdk json_encoder request w) =
                [breeze_call BreezeConnect.get_quotes kw]) /\
  (calls (get_depth breeze_sdk json_encoder request w) = [] \/
   exists kw, calls (get_depth breeze_sdk json_encoder request w) =
                [breeze_call BreezeConnect.get_market_depth kw]) /\
  (calls (analyze_market model_sdk repr_str json_encoder request w) = [] \/
   exists prompt, calls (analyze_market model_sdk repr_str json_encoder request w) =
                    [model_generate_content prompt]).
Proof.
  repeat split.
  - destruct (set_session_frame request w) as [[kw [_ [Hc _]]] | [_ Hc]];
      [right; exists kw | left]; exact Hc.
  - destruct (get_quotes_frame breeze_sdk json_encoder request w) as [[kw [_ Hc]] | [_ Hc]];
      [right; exists kw | left]; exact Hc.
  - destruct (get_depth_frame breeze_sdk json_encoder request w) as [[kw [_ Hc]] | [_ Hc]];
      [right; exists kw | left]; exact Hc.
  - destruct (analyze_market_frame model_sdk repr_str json_encoder request w)
      as [[prompt [_ Hc]] | [_ Hc]]; [right; exists prompt | left]; exact Hc.
Qed.

(** X5: whatever the clients do, no view changes the secret; the three
    brokerage views leave the model client as it was, and the analysis view
    leaves the brokerage client as it was. *)
Theorem views_touch_only_their_client request w :
  (BREEZE_API_SECRET (world (set_session breeze_sdk json_encoder request w)) = BREEZE_API_SECRET w /\
   BREEZE_API_SECRET (world (get_quotes breeze_sdk json_encoder request w)) = BREEZE_API_SECRET w /\
   BREEZE_API_SECRET (world (get_depth breeze_sdk json_encoder request w)) = BREEZE_API_SECRET w /\
   BREEZE_API_SECRET (world (analyze_market model_sdk repr_str json_encoder request w)) =
     BREEZE_API_SECRET w) /\
  (model (world (set_session breeze_sdk json_encoder request w)) = model w /\
   model (world (get_quotes breeze_sdk json_encoder request w)) = model w /\
   model (world (get_depth breeze_sdk json_encoder request w)) = model w) /\
  breeze (world (analyze_market model_sdk repr_str json_encoder request w)) = breeze w.
Proof.
  destruct (set_session_frame request w) as [[ks [Ws _]] | [Ws _]];
    destruct (get_quotes_frame breeze_sdk json_encoder request w) as [[kq [Wq _]] | [Wq _]];
    destruct (get_depth_frame breeze_sdk json_encoder request w) as [[kd [Wd _]] | [Wd _]];
    destruct (analyze_market_frame model_sdk repr_str json_encoder request w)
      as [[pa [Wa _]] | [Wa _]];
    rewrite Ws, Wq, Wd, Wa; repeat split; reflexivity.
Qed.

End Views.

(** ** Missing fields and views in sequence *)

Section Sequences.

Context {B G : Type}.
Variable breeze_sdk : BreezeConnect.client B.
Variable model_sdk : GenerativeModel.client G.
Variable repr_str : string -> string.
Variable json_encoder : value -> option exn.

Implicit Types (request : Request) (w : @World B G) (d : list (string * value)).
Implicit Types (e : exn) (kw : kwargs).

(** X6: on a dict body without an api_session field the session view checks
    nothing: it calls generate_session with the secret and session_token
    None, and a client that accepts this gets the 200 success answer. *)
Theorem missing_api_session_is_forwarded d w :
  assoc "api_session" d = None ->
  calls (set_session breeze_sdk json_encoder (post (VDict d)) w) =
    [breeze_call BreezeConnect.generate_session
       [("api_secret", BREEZE_API_SECRET w); ("session_token", VNone)]] /\
  (exists resp, returned (set_session breeze_sdk json_encoder (post (VDict d)) w) = Return resp) /\
  (forall v b,
     breeze_sdk BreezeConnect.generate_session
       [("api_secret", BREEZE_API_SECRET w); ("session_token", VNone)]
       (breeze w) = (Return v, b) ->
     returned (set_session breeze_sdk json_encoder (post (VDict d)) w) =
       Return {| status_code := 200;
                 body := VDict [("status", VStr "success");
                                ("message", VStr "Session generated")] |}).
Proof.
  intros Hmissing. rewrite set_session_run. cbn.
  unfold dict_get. rewrite Hmissing. repeat split.
  - eexists. reflexivity.
  - intros v b Hcall. rewrite Hcall. reflexivity.
Qed.

(** X7: on a dict body without a stock_code field the depth view calls
    get_market_depth with stock_code None, returns a response whatever the
    call does, and turns an exception of the call into the 500 error
    payload. *)
Theorem missing_stock_code_reaches_depth d w :
  assoc "stock_code" d = None ->
  calls (get_depth breeze_sdk json_encoder (post (VDict d)) w) =
    [breeze_call BreezeConnect.get_market_depth
       [("stock_code", VNone); ("exchange_code", VStr "NSE");
        ("product_type", VStr "cash")]] /\
  (exists resp, returned (get_depth breeze_sdk json_encoder (post (VDict d)) w) = Return resp) /\
  (forall e b,
     breeze_sdk BreezeConnect.get_market_depth
       [("stock_code", VNone); ("exchange_code", VStr "NSE");
        ("product_type", VStr "cash")] (breeze w) = (Raise e, b) ->
     returned (get_depth breeze_sdk json_encoder (post (VDict d)) w) =
       Return {| status_code := 500;
                 body := VDict [("status", VStr "error");
                                ("message", VStr (str_exn e))] |}).
Proof.
  intros Hmissing. rewrite get_depth_run. cbn.
  unfold dict_get. rewrite Hmissing. repeat split.
  - eexists. reflexivity.
  - intros e b Hcall. rewrite Hcall. reflexivity.
Qed.

(** X8: the session view followed by the quotes view: the quote is asked of
    the client in the state generate_session left it in, also when
    generate_session raised (what it changed before raising stays); the
    answer is built from what that call returns or raises and from what
    jsonify makes of a returned payload, and the client ends as that call
    left it. *)
Theorem quotes_after_session d1 d2 w :
  let after_session :=
    snd (breeze_sdk BreezeConnect.generate_session
           [("api_secret", BREEZE_API_SECRET w);
            ("session_token", dict_get d1 "api_session")] (breeze w)) in
  let quote :=
    breeze_sdk BreezeConnect.get_quotes
      [("stock_code", dict_get d2 "stock_code"); ("exchange_code", VStr "NSE");
       ("expiry_date", VStr ""); ("product_type", VStr "cash");
       ("right", VStr ""); ("strike_price", VStr "")] after_session in
  let w1 := world (set_session breeze_sdk json_encoder (post (VDict d1)) w) in
  breeze w1 = after_session /\
  returned (get_quotes breeze_sdk json_encoder (post (VDict d2)) w1) =
    Return match fst quote with
           | Return res =>
               match jsonify json_encoder res with
               | Return _ => {| status_code := 200; body := res |}
               | Raise e =>
                   {| status_code := 500;
                      body := VDict [("status", VStr "error");
                                     ("message", VStr (str_exn e))] |}
               end
           | Raise e =>
               {| status_code := 500;
                  body := VDict [("status", VStr "error");
                                 ("message", VStr (str_exn e))] |}
           end /\
  breeze (world (get_quotes breeze_sdk json_encoder (post (VDict d2)) w1)) =
    snd quote.
Proof.
  cbv zeta. rewrite get_quotes_run, set_session_run. cbn -[jsonify].
  repeat split.
  destruct (fst (breeze_sdk BreezeConnect.get_quotes _ _)) as [res | e];
    [| reflexivity].
  destruct (jsonify json_encoder res) as [response | e] eqn:Hjson;
    [rewrite (jsonify_returns json_encoder res response Hjson) |]; reflexivity.
Qed.

End Sequences.

(** ** A run of requests *)

Section Serving.

Context {B G : Type}.
Variable breeze_sdk : BreezeConnect.client B.
Variable model_sdk : GenerativeModel.client G.
Variable repr_str : string -> string.
Variable json_encoder : value -> option exn.

Implicit Types (request : Request) (w : @World B G) (ep : Endpoint.t).
Implicit Types (incoming : list Incoming) (kw : kwargs).

(** One view, whichever the endpoint: either nothing was called and nothing
    changed, or one call was made; the secret is kept, and a call of
    generate_session comes from the session view and carries the secret. *)
Lemma view_frame ep request w :
  let o := view_functions breeze_sdk model_sdk repr_str json_encoder ep request w in
  BREEZE_API_SECRET (world o) = BREEZE_API_SECRET w /\
  (length (calls o) <= 1)%nat /\
  (forall c, In c (calls o) -> is_generate_session c = true ->
     ep = Endpoint.set_session /\
     exists kw, c = breeze_call BreezeConnect.generate_session kw /\
                assoc "api_secret" kw = Some (BREEZE_API_SECRET w)).
Proof.
  destruct ep; cbn [view_functions].
  - destruct (set_session_frame breeze_sdk json_encoder request w) as [[kw [W [C S]]] | [W C]];
      rewrite W, C; cbn; (split; [reflexivity | split; [lia |]]).
    + intros c [<- | []] _. eauto.
    + intros c [].
  - destruct (get_quotes_frame breeze_sdk json_encoder request w) as [[kw [W C]] | [W C]];
      rewrite W, C; cbn; (split; [reflexivity | split; [lia |]]).
    + intros c [<- | []]; discriminate.
    + intros c [].
  - destruct (get_depth_frame breeze_sdk json_encoder request w) as [[kw [W C]] | [W C]];
      rewrite W, C; cbn; (split; [reflexivity | split; [lia |]]).
    + intros c [<- | []]; discriminate.
    + intros c [].
  - destruct (analyze_market_frame model_sdk repr_str json_encoder request w)
      as [[prompt [W C]] | [W C]];
      rewrite W, C; cbn; (split; [reflexivity | split; [lia |]]).
    + intros c [<- | []]; discriminate.
    + intros c [].
Qed.

(** Under clients whose look-ups change nothing, a view other than the
    session view leaves the state as it was. *)
Lemma lookup_view_keeps_world ep request w :
  (forall kw b, snd (breeze_sdk BreezeConnect.get_quotes kw b) = b) ->
  (forall kw b, snd (breeze_sdk BreezeConnect.get_market_depth kw b) = b) ->
  (forall prompt g, snd (model_sdk prompt g) = g) ->
  ep <> Endpoint.set_session ->
  world (view_functions breeze_sdk model_sdk repr_str json_encoder ep request w) = w.
Proof.
  intros Hq Hd Hm Hep. destruct ep; cbn [view_functions]; [contradiction | | |].
  - destruct (get_quotes_frame breeze_sdk json_encoder request w) as [[kw [W _]] | [W _]];
      rewrite W, ?Hq, ?set_breeze_same; reflexivity.
  - destruct (get_depth_frame breeze_sdk json_encoder request w) as [[kw [W _]] | [W _]];
      rewrite W, ?Hd, ?set_breeze_same; reflexivity.
  - destruct (analyze_market_frame model_sdk repr_str json_encoder request w)
      as [[prompt [W _]] | [W _]];
      rewrite W, ?Hm, ?set_model_same; reflexivity.
Qed.

Lemma serve_cons i incoming w :
  serve breeze_sdk model_sdk repr_str json_encoder (i :: incoming) w =
    match match_rule app_routes (request_method i) (request_path i) with
    | None =>
        let s := serve breeze_sdk model_sdk repr_str json_encoder incoming w in
        {| responses := None :: responses s; final := final s; log := log s |}
    | Some ep =>
        let o := view_functions breeze_sdk model_sdk repr_str json_encoder ep (request_body i) w in
        let s := serve breeze_sdk model_sdk repr_str json_encoder incoming (world o) in
        {| responses := Some (returned o) :: responses s;
           final := final s;
           log := calls o ++ log s |}
    end.
Proof.
  cbn [serve]. unfold dispatch_request.
  destruct (match_rule app_routes _ _); reflexivity.
Qed.

(** X10: the secret read at start-up is the same after any run of requests,
    whatever the requests and whatever the clients do. *)
Theorem secret_is_invariant incoming w :
  BREEZE_API_SECRET (final (serve breeze_sdk model_sdk repr_str json_encoder incoming w)) =
    BREEZE_API_SECRET w.
Proof.
  revert w. induction incoming as [| i incoming IH]; intros w; [reflexivity |].
  rewrite serve_cons.
  destruct (match_rule app_routes _ _) as [ep |]; cbn [final].
  - rewrite IH. apply (view_frame ep (request_body i) w).
  - apply IH.
Qed.

(** X11: a run of requests makes at most one SDK call per request, and at
    most one generate_session per request routed to the session view. *)
Theorem calls_bounded_by_requests incoming w :
  (length (log (serve breeze_sdk model_sdk repr_str json_encoder incoming w))
     <= length incoming)%nat /\
  (length (filter is_generate_session
             (log (serve breeze_sdk model_sdk repr_str json_encoder incoming w)))
     <= length (filter routed_to_set_session incoming))%nat.
Proof.
  revert w. induction incoming as [| i incoming IH]; intros w; [cbn; lia |].
  rewrite serve_cons. cbn [filter]. unfold routed_to_set_session at 1.
  destruct (match_rule app_routes _ _) as [ep |]; cbn [log length].
  - destruct (view_frame ep (request_body i) w) as [_ [Hlen Hgen]].
    set (o := view_functions breeze_sdk model_sdk repr_str json_encoder ep (request_body i) w) in *.
    destruct (IH (world o)) as [IH1 IH2].
    rewrite length_app, filter_app, length_app. split; [lia |].
    assert (Hf : (length (filter is_generate_session (calls o)) <= 1)%nat).
    { pose proof (filter_length_le is_generate_session (calls o)). lia. }
    destruct ep; cbn [length]; try lia.
    all: assert (Hnil : filter is_generate_session (calls o) = []);
      [ | rewrite Hnil; cbn [length]; lia ].
    all: destruct (filter is_generate_session (calls o)) as [| c rest] eqn:E;
      [reflexivity |].
    all: assert (Hc : In c (filter is_generate_session (calls o)))
      by (rewrite E; left; reflexivity).
    all: apply filter_In in Hc; destruct Hc as [Hin Hg];
      destruct (Hgen c Hin Hg) as [Hep _]; discriminate Hep.
  - destruct (IH w) as [IH1 IH2]. split; lia.
Qed.

(** X12: with clients whose look-ups change nothing, a run of requests none
    of which is routed to the session view leaves the state of the process
    as it was, and makes no generate_session call. *)
Theorem lookups_only_run_keeps_state incoming w :
  (forall kw b, snd (breeze_sdk BreezeConnect.get_quotes kw b) = b) ->
  (forall kw b, snd (breeze_sdk BreezeConnect.get_market_depth kw b) = b) ->
  (forall prompt g, snd (model_sdk prompt g) = g) ->
  forallb (fun i => negb (routed_to_set_session i)) incoming = true ->
  final (serve breeze_sdk model_sdk repr_str json_encoder incoming w) = w /\
  filter is_generate_session
    (log (serve breeze_sdk model_sdk repr_str json_encoder incoming w)) = [].
Proof.
  intros Hq Hd Hm. revert w.
  induction incoming as [| i incoming IH]; intros w Hno; [split; reflexivity |].
  cbn [forallb] in Hno. apply Bool.andb_true_iff in Hno. destruct Hno as [Hi Hrest].
  rewrite serve_cons. unfold routed_to_set_session in Hi.
  destruct (match_rule app_routes _ _) as [ep |]; cbn [final log].
  - assert (Hep : ep <> Endpoint.set_session)
      by (intros ->; discriminate Hi).
    destruct (view_frame ep (request_body i) w) as [_ [_ Hgen]].
    rewrite (lookup_view_keeps_world ep (request_body i) w Hq Hd Hm Hep).
    destruct (IH w Hrest) as [IH1 IH2]. split; [exact IH1 |].
    rewrite filter_app, IH2, app_nil_r.
    set (o := view_functions breeze_sdk model_sdk repr_str json_encoder ep (request_body i) w) in *.
    destruct (filter is_generate_session (calls o)) as [| c rest] eqn:E;
      [reflexivity |].
    assert (Hc : In c (filter is_generate_session (calls o)))
      by (rewrite E; left; reflexivity).
    apply filter_In in Hc. destruct Hc as [Hin Hg].
    destruct (Hgen c Hin Hg) as [Habs _]. contradiction.
  - exact (IH w Hrest).
Qed.

(** Every generate_session of a run carries the secret the run started
    with. *)
Lemma served_sessions_carry_secret incoming w kw :
  In (breeze_call BreezeConnect.generate_session kw)
     (log (serve breeze_sdk model_sdk repr_str json_encoder incoming w)) ->
  assoc "api_secret" kw = Some (BREEZE_API_SECRET w).
Proof.
  revert w. induction incoming as [| i incoming IH]; intros w; [intros [] |].
  rewrite serve_cons.
  destruct (match_rule app_routes _ _) as [ep |]; cbn [log]; [| apply IH].
  destruct (view_frame ep (request_body i) w) as [Hsecret [_ Hgen]].
  intros Hin. apply in_app_or in Hin. destruct Hin as [Hin | Hin].
  - destruct (Hgen _ Hin eq_refl) as [_ [kw' [[= <-] Hkw]]]. exact Hkw.
  - rewrite <- Hsecret. exact (IH _ Hin).
Qed.

End Serving.

(** ** From start-up to the session call *)

Section FromStartup.

Context {B G C : Type}.
Variable configure : kwargs -> result C.
Variable new_GenerativeModel : list value -> C -> result G.
Variable new_BreezeConnect : kwargs -> result B.
Variable breeze_sdk : BreezeConnect.client B.
Variable model_sdk : GenerativeModel.client G.
Variable repr_str : string -> string.
Variable json_encoder : value -> option exn.

Lemma module_init_secret environ w0 :
  module_init configure new_GenerativeModel new_BreezeConnect environ = Return w0 ->
  BREEZE_API_SECRET w0 = environ_get environ "BREEZE_API_SECRET".
Proof.
  unfold module_init.
  destruct (configure _) as [c | e]; [| discriminate].
  destruct (new_GenerativeModel _ c) as [g | e]; [| discriminate].
  destruct (new_BreezeConnect _) as [b | e]; [| discriminate].
  intros [= <-]. reflexivity.
Qed.

(** X13: in a process started from an environment, every generate_session
    call of any run of requests carries as api_secret what BREEZE_API_SECRET
    held at start-up (None when it was unset), whatever was served in
    between. *)
Theorem secret_comes_from_environment environ w0 incoming kw :
  module_init configure new_GenerativeModel new_BreezeConnect environ = Return w0 ->
  In (breeze_call BreezeConnect.generate_session kw)
     (log (serve breeze_sdk model_sdk repr_str json_encoder incoming w0)) ->
  assoc "api_secret" kw = Some (environ_get environ "BREEZE_API_SECRET").
Proof.
  intros Hinit Hin.
  rewrite <- (module_init_secret environ w0 Hinit).
  exact (served_sessions_carry_secret breeze_sdk model_sdk repr_str json_encoder
           incoming w0 kw Hin).
Qed.

End FromStartup.

(** ** The further properties on the stub clients *)

(** A JSON string posted where an object is expected. *)
Lemma body_not_a_dict_raises_witness :
  is_dict (VStr "RELIND") = false /\
  get_quotes Stub.breeze_sdk Stub.json_encoder (post (VStr "RELIND"))
    Stub.authenticated =
    {| returned :=
         Raise (Exception "AttributeError" "'str' object has no attribute 'get'");
       world := Stub.authenticated; calls := [] |}.
Proof.
  split; [reflexivity |].
  exact (proj1 (proj2 (body_not_a_dict_raises Stub.breeze_sdk Stub.model_sdk
                         Stub.repr_str Stub.json_encoder (VStr "RELIND")
                         Stub.authenticated eq_refl))).
Defined.

(** An empty object posted to the session route: the stub refuses None. *)
Lemma missing_api_session_is_forwarded_witness :
  assoc "api_session" [] = None /\
  calls (set_session Stub.breeze_sdk Stub.json_encoder (post (VDict []))
           Stub.fresh) =
    [breeze_call BreezeConnect.generate_session
       [("api_secret", VStr "s3cr3t"); ("session_token", VNone)]] /\
  exists resp,
    returned (set_session Stub.breeze_sdk Stub.json_encoder (post (VDict []))
                Stub.fresh) = Return resp.
Proof.
  split; [reflexivity |].
  destruct (missing_api_session_is_forwarded Stub.breeze_sdk Stub.json_encoder []
              Stub.fresh eq_refl) as [Hcalls [Hresp _]].
  split; [exact Hcalls | exact Hresp].
Defined.

(** An empty object posted to the depth route. *)
Lemma missing_stock_code_reaches_depth_witness :
  assoc "stock_code" [] = None /\
  calls (get_depth Stub.breeze_sdk Stub.json_encoder (post (VDict []))
           Stub.authenticated) =
    [breeze_call BreezeConnect.get_market_depth
       [("stock_code", VNone); ("exchange_code", VStr "NSE");
        ("product_type", VStr "cash")]] /\
  returned (get_depth Stub.breeze_sdk Stub.json_encoder (post (VDict []))
              Stub.authenticated) =
    Return {| status_code := 500;
              body := VDict [("status", VStr "error");
                             ("message", VStr "stock_code must be a string")] |}.
Proof.
  split; [reflexivity |].
  destruct (missing_stock_code_reaches_depth Stub.breeze_sdk Stub.json_encoder []
              Stub.authenticated eq_refl) as [Hcalls [_ Hraise]].
  split; [exact Hcalls |].
  exact (Hraise (Exception "TypeError" "stock_code must be a string")
           (Some "token-1") eq_refl).
Defined.

(** A run of look-ups on the authenticated stub. *)
Lemma lookups_only_run_keeps_state_witness :
  forallb (fun i => negb (routed_to_set_session i)) StubStartup.lookups_run = true /\
  final (serve Stub.breeze_sdk Stub.model_sdk Stub.repr_str Stub.json_encoder
           StubStartup.lookups_run Stub.authenticated) = Stub.authenticated.
Proof.
  split; [reflexivity |].
  exact (proj1 (lookups_only_run_keeps_state Stub.breeze_sdk Stub.model_sdk
                  Stub.repr_str Stub.json_encoder
                  StubStartup.lookups_run Stub.authenticated
                  stub_get_quotes_reads stub_get_market_depth_reads
                  stub_generate_content_reads eq_refl)).
Defined.

(** Start-up with both brokerage variables set, then a session request. *)
Lemma secret_comes_from_environment_witness :
  module_init StubStartup.configure StubStartup.new_GenerativeModel
    StubStartup.new_BreezeConnect StubStartup.environ =
    Return StubStartup.started /\
  In (breeze_call BreezeConnect.generate_session
        [("api_secret", VStr "s3cr3t"); ("session_token", VStr "token-2")])
     (log (serve Stub.breeze_sdk Stub.model_sdk Stub.repr_str Stub.json_encoder
             StubStartup.session_run StubStartup.started)) /\
  assoc "api_secret"
    [("api_secret", VStr "s3cr3t"); ("session_token", VStr "token-2")] =
    Some (VStr "s3cr3t").
Proof.
  split; [reflexivity |]. split; [left; reflexivity |].
  exact (secret_comes_from_environment StubStartup.configure
           StubStartup.new_GenerativeModel StubStartup.new_BreezeConnect
           Stub.breeze_sdk Stub.model_sdk Stub.repr_str Stub.json_encoder
           StubStartup.environ StubStartup.started StubStartup.session_run
           [("api_secret", VStr "s3cr3t"); ("session_token", VStr "token-2")]
           eq_refl (or_introl eq_refl)).
Defined.
